(** * swoupon_calc: cost and capped reward as functions of a volume

    Shallow embedding of [src/python/swoupon_calc.py].

    Numbers.  The Python functions take and return [float].  The embedding
    gives two readings of the same lines of code.

    - Exact arithmetic (the top-level definitions).  Every float is read as
      the real number it stands for: [+], [*], [/] are the field operations
      of [R], [np.exp] is [exp] and [np.power] is [Rpower] (its base is
      [1 + v >= 1], where [Rpower] is the power function).  Rounding,
      overflow, infinities and NaN are outside this reading, and a theorem
      stated over [R] is a statement about the formulas evaluated in exact
      arithmetic.

    - Binary64 (module [Binary64]).  Floats are IEEE 754 doubles
      ([PrimFloat]): [+], [*], [/] round to nearest, comparisons are the
      IEEE ones (false on NaN), and [np.exp], [np.power] are the correctly
      rounded exponential and power of module [Libm].  Facts about this
      reading are closed statements established by evaluation.

    Exceptions.  [raise ValueError(..)] and [raise ZeroDivisionError(..)]
    become the [Raise] constructor of [result]; calls are sequenced by the
    bind of that error monad, so an exception of a callee leaves the caller
    at once, as in Python. *)

From Stdlib Require Import ZArith Floats.
From Stdlib Require Import Reals Ranalysis5 Lra Psatz String List Sorted.
Import ListNotations.

Open Scope R_scope.

(** The decimal constants of the source are not doubles; as in Python, a
    decimal literal denotes the nearest double. *)
Set Warnings "-inexact-float".

(** Decimal literals of [R] are [Q2R] of a fraction; [decimals] exposes the
    fraction so that [field] can normalise them. *)
Ltac decimals := unfold Q2R; cbn [QArith_base.Qnum QArith_base.Qden].

(** ** Exceptions and results *)

Inductive exn : Type :=
| ValueError (msg : string)
| ZeroDivisionError (msg : string).

Inductive result (A : Type) : Type :=
| Return (a : A)
| Raise (e : exn).

Arguments Return {A} a.
Arguments Raise {A} e.

Definition bind {A B : Type} (m : result A) (k : A -> result B) : result B :=
  match m with
  | Return a => k a
  | Raise e => Raise e
  end.

Notation "'let*' x ':=' m 'in' k" := (bind m (fun x => k))
  (at level 10, x name, m at level 100, k at level 200).

Definition is_ValueError {A : Type} (r : result A) : Prop :=
  match r with
  | Raise (ValueError _) => True
  | _ => False
  end.

Definition is_ZeroDivisionError {A : Type} (r : result A) : Prop :=
  match r with
  | Raise (ZeroDivisionError _) => True
  | _ => False
  end.

(** ** Constants (lines 4-10) *)

Definition C_0_01 : R := 0.01.
Definition C_0_02 : R := 0.02.
Definition C_NEG_0_00005 : R := -0.00005.
Definition C_0_1 : R := 0.1.
Definition POWER_EXPONENT : R := 0.3.
Definition MAX_TI_FRACTION_OF_TR : R := 1 / 3.

Definition msg_negative : string := "Volume (v) cannot be negative".
Definition msg_zero_div : string := "Constant C_0_1 cannot be zero".

(** Python's two-argument [min(a, b)] returns [b] when [b < a] and [a]
    otherwise; [max(a, b)] returns [b] when [b > a] and [a] otherwise. *)

Definition py_min (a b : R) : R := if Rlt_dec b a then b else a.
Definition py_max (a b : R) : R := if Rlt_dec a b then b else a.

(** ** Core calculation functions *)

(** Lines 14-21. *)
Definition _F (v : R) : result R :=
  if Rlt_dec v 0 then Raise (ValueError msg_negative)
  else Return (C_0_01 + (C_0_02 * exp (C_NEG_0_00005 * v))).

(** Lines 23-36. *)
Definition calculate_TR (v : R) : result R :=
  if Rlt_dec v 0 then Raise (ValueError msg_negative)
  else if Req_dec_T v 0 then Return 0
  else if Req_dec_T C_0_1 0 then Raise (ZeroDivisionError msg_zero_div)
  else
    let* f_v := _F v in
    Return (f_v * v / C_0_1).

(** Lines 38-52. *)
Definition calculate_potential_TI (v : R) : result R :=
  if Rlt_dec v 0 then Raise (ValueError msg_negative)
  else if Req_dec_T C_0_1 0 then Raise (ZeroDivisionError msg_zero_div)
  else
    let base := 1 + v in
    let pow_val := Rpower base POWER_EXPONENT in
    Return (pow_val / C_0_1).

(** Lines 54-82. *)
Definition calculate_TR_and_TI (v : R) : result (R * R) :=
  if Rlt_dec v 0 then Raise (ValueError msg_negative)
  else
    let* tr_value := calculate_TR v in
    let* potential_ti_value := calculate_potential_TI v in
    let ti_upper_bound := MAX_TI_FRACTION_OF_TR * tr_value in
    let ti_value := py_min potential_ti_value ti_upper_bound in
    let ti_value := py_max 0 ti_value in
    Return (tr_value, ti_value).

(** The body of [calculate_TR_and_TI] with line 80 (the floor at zero)
    deleted; used to state that the floor never changes the result. *)
Definition calculate_TR_and_TI_no_floor (v : R) : result (R * R) :=
  if Rlt_dec v 0 then Raise (ValueError msg_negative)
  else
    let* tr_value := calculate_TR v in
    let* potential_ti_value := calculate_potential_TI v in
    let ti_upper_bound := MAX_TI_FRACTION_OF_TR * tr_value in
    let ti_value := py_min potential_ti_value ti_upper_bound in
    Return (tr_value, ti_value).

(** ** The formulas the functions compute on their valid domain *)

Definition F_formula (v : R) : R := 0.01 + 0.02 * exp (- 0.00005 * v).
Definition TR_formula (v : R) : R := F_formula v * v / 0.1.
Definition TI_pot_formula (v : R) : R := Rpower (1 + v) 0.3 / 0.1.

(** ** The reference pipeline, written from the specification

    [Spec.Evaluate] follows the wording of the specification (section 4.1),
    not the code: [Cost] short-circuits at [V = 0], otherwise it is
    [UnitFactor V * V / c3]; the reward is the potential reward capped at a
    third of the cost and floored at zero. *)

Module Spec.

Definition c1 : R := 0.01.
Definition c2 : R := 0.02.
Definition k : R := -0.00005.
Definition c3 : R := 0.1.
Definition p : R := 0.3.

Definition UnitFactor (V : R) : R := c1 + c2 * exp (k * V).

Definition Cost (V : R) : R :=
  if Req_dec_T V 0 then 0 else UnitFactor V * V / c3.

Definition PotentialReward (V : R) : R := Rpower (1 + V) p / c3.

Definition Evaluate (V : R) : R * R :=
  let TR := Cost V in
  let TI_pot := PotentialReward V in
  let Cap := (1 / 3) * TR in
  (TR, Rmax 0 (Rmin TI_pot Cap)).

End Spec.

(** ** Capped and uncapped evaluations *)

(** [capped_at V]: the call succeeds and the reward is a third of the cost. *)
Definition capped_at (V : R) : Prop :=
  exists tr ti, calculate_TR_and_TI V = Return (tr, ti) /\ ti = tr / 3.

(** [uncapped_at V]: the call succeeds and the reward is the potential
    reward. *)
Definition uncapped_at (V : R) : Prop :=
  exists tr ti,
    calculate_TR_and_TI V = Return (tr, ti) /\
    calculate_potential_TI V = Return ti.

(** ** The cap against the potential reward

    [cap_ratio v] is three times the cap [(1/3) * TR v] divided by the
    potential reward [TI_pot v]: the reward is capped exactly where
    [cap_ratio v <= 3].  [cap_ratio_deriv] is its derivative. *)

Definition cap_ratio (v : R) : R := F_formula v * v * Rpower (1 + v) (- 0.3).

Definition cap_ratio_deriv (v : R) : R :=
  Rpower (1 + v) (- 0.3) *
  (F_formula v * ((1 + 0.7 * v) / (1 + v)) - 0.000001 * v * exp (- 0.00005 * v)).

(** The reward formula on the valid domain: potential reward, capped at a
    third of the cost, floored at zero. *)
Definition TI_formula (v : R) : R :=
  Rmax 0 (Rmin (TI_pot_formula v) (1 / 3 * TR_formula v)).

(** ** The demonstration block (lines 85-112)

    The block prints; the embedding keeps what is printed as data and leaves
    the formatting of the numbers out.  Each pass of the loop of lines
    92-97 prints one line: the volume with its cost and reward, or, when
    the call raises, the volume with the text of the exception
    ([except Exception as e] catches every exception of the model). *)

Definition exn_message (e : exn) : string :=
  match e with
  | ValueError msg => msg
  | ZeroDivisionError msg => msg
  end.

Inductive table_line : Type :=
| DataLine (volume tr ti : R)
| ErrorLine (volume : R) (msg : string).

Definition table_line_of (volume : R) : table_line :=
  match calculate_TR_and_TI volume with
  | Return (tr, ti) => DataLine volume tr ti
  | Raise e => ErrorLine volume (exn_message e)
  end.

Definition table (volumes : list R) : list table_line :=
  map table_line_of volumes.

(** Lines 101-112: the values the capping check prints for [v_example],
    the last one being the flag [pot_ti_ex > cap_ex]. *)
Record capping_report : Type := {
  rep_TR : R;
  rep_potential_TI : R;
  rep_cap : R;
  rep_final_TI : R;
  rep_capped : bool
}.

Definition v_example : R := 100000.

Definition capping_check (v_example : R) : result capping_report :=
  let* tr_ex := calculate_TR v_example in
  let* pot_ti_ex := calculate_potential_TI v_example in
  let cap_ex := MAX_TI_FRACTION_OF_TR * tr_ex in
  let final_ti_ex := py_min pot_ti_ex cap_ex in
  Return {| rep_TR := tr_ex;
            rep_potential_TI := pot_ti_ex;
            rep_cap := cap_ex;
            rep_final_TI := final_ti_ex;
            rep_capped := if Rlt_dec cap_ex pot_ti_ex then true else false |}.

(** * Binary64 arithmetic

    ** Correctly rounded [exp] and [pow]

    [np.exp] and [np.power] are computed by enclosure: the real value is
    bracketed between two fixed-point numbers (integers scaled by a power of
    two, every operation rounded outwards), both ends are rounded to the
    nearest double, and the precision is raised until the two doubles
    agree. *)

Module Libm.

Local Open Scope Z_scope.

Definition bitlen (m : Z) : Z := if m <=? 0 then 0 else Z.log2 m + 1.

(** [m * 2 ^ e] rounded down and up to an integer. *)
Definition scale_floor (m e : Z) : Z := Z.shiftl m e.
Definition scale_ceil (m e : Z) : Z := - Z.shiftl (- m) e.
Definition div_ceil (a b : Z) : Z := - ((- a) / b).

(** The double of value [M * 2 ^ E], for [0 <= M <= 2 ^ 53] and
    [E >= -1074]; infinity when that value is [2 ^ 1024] or more. *)
Definition pack (M E : Z) : float :=
  if M =? 0 then PrimFloat.zero
  else if 1024 <? bitlen M + E then PrimFloat.infinity
  else SF2Prim (S754_finite false (Z.to_pos M) E).

(** The double nearest to [m * 2 ^ e] (ties to even), for [m >= 0]. *)
Definition round_nearest_even (m e : Z) : float :=
  if m <=? 0 then PrimFloat.zero
  else
    let E := Z.max (e + bitlen m - 53) (-1074) in
    let sh := E - e in
    if sh <=? 0 then pack (Z.shiftl m (- sh)) E
    else
      let q := Z.shiftr m sh in
      let r := m - Z.shiftl q sh in
      let half := Z.shiftl 1 (sh - 1) in
      let up := orb (half <? r) (andb (r =? half) (Z.odd q)) in
      pack (if up then q + 1 else q) E.

Section Enclosures.

(** Number of fractional bits of the fixed-point numbers below: the integer
    [z] stands for [z * 2 ^ (- P)]. *)
Variable P : Z.

Definition one : Z := Z.shiftl 1 P.

(** Partial sums of [sum r^n / n!] for [0 <= r <= 1/2], as a lower and an
    upper bound; the tail after the last term is at most that term. *)
Fixpoint exp_taylor (fuel : nat) (n rlo rhi tlo thi slo shi : Z) : Z * Z :=
  match fuel with
  | O => (slo, shi + thi + 1)
  | S fuel' =>
      let tlo' := Z.shiftr (tlo * rlo) P / n in
      let thi' := div_ceil (scale_ceil (thi * rhi) (- P)) n in
      exp_taylor fuel' (n + 1) rlo rhi tlo' thi' (slo + tlo') (shi + thi')
  end.

Fixpoint square_n (k : nat) (lo hi : Z) : Z * Z :=
  match k with
  | O => (lo, hi)
  | S k' => square_n k' (Z.shiftr (lo * lo) P) (scale_ceil (hi * hi) (- P))
  end.

Definition terms : nat := Z.to_nat (P / 4 + 8).

(** Bounds of [exp (m * 2 ^ e)] for [m > 0]: halve the argument [k] times
    to bring it below [1/2], sum the series, square [k] times. *)
Definition exp_pos (m e : Z) : Z * Z :=
  let k := Z.max 0 (bitlen m + e + 1) in
  let rlo := scale_floor m (e + P - k) in
  let rhi := scale_ceil m (e + P - k) in
  let '(slo, shi) := exp_taylor terms 1 rlo rhi one one one one in
  square_n (Z.to_nat k) slo shi.

(** Bounds [(lo, hi, f)] of [exp (m * 2 ^ e)] for any integer [m]:
    [lo * 2 ^ (- f) <= exp (m * 2 ^ e) <= hi * 2 ^ (- f)]. *)
Definition exp_bounds (m e : Z) : Z * Z * Z :=
  if m =? 0 then (one, one, P)
  else if 0 <? m then let '(lo, hi) := exp_pos m e in (lo, hi, P)
  else
    let '(lo, hi) := exp_pos (- m) e in
    let S := bitlen hi - P in
    let num := Z.shiftl 1 (2 * P + S) in
    (num / hi, div_ceil num lo, P + S).

(** Partial sums of [sum z^(2n+1) / (2n+1)] for [0 <= z <= 1/3]; the tail
    after the last term is at most the last power. *)
Fixpoint atanh_series (fuel : nat) (d wlo whi plo phi slo shi : Z) : Z * Z :=
  match fuel with
  | O => (slo, shi + phi + 1)
  | S fuel' =>
      let plo' := Z.shiftr (plo * wlo) P in
      let phi' := scale_ceil (phi * whi) (- P) in
      let d' := d + 2 in
      atanh_series fuel' d' wlo whi plo' phi'
        (slo + plo' / d') (shi + div_ceil phi' d')
  end.

(** Bounds of [ln ((den + num) / (den - num))] = [2 atanh (num / den)],
    for [0 <= 3 * num <= den]. *)
Definition ln_ratio (num den : Z) : Z * Z :=
  let zlo := Z.shiftl num P / den in
  let zhi := div_ceil (Z.shiftl num P) den in
  let wlo := Z.shiftr (zlo * zlo) P in
  let whi := scale_ceil (zhi * zhi) (- P) in
  let '(slo, shi) := atanh_series terms 1 wlo whi zlo zhi zlo zhi in
  (2 * slo, 2 * shi).

(** Bounds of [ln (m * 2 ^ e)] for [m > 0]: with [t = m / 2 ^ (L - 1)] in
    [[1, 2)], [ln (m * 2 ^ e) = (e + L - 1) * ln 2 + ln t]. *)
Definition ln_bounds (m e : Z) : Z * Z :=
  let L := bitlen m in
  let top := Z.shiftl 1 (L - 1) in
  let E := e + L - 1 in
  let '(tlo, thi) := ln_ratio (m - top) (m + top) in
  let '(l2lo, l2hi) := ln_ratio 1 3 in
  if 0 <=? E then (E * l2lo + tlo, E * l2hi + thi)
  else (E * l2hi + tlo, E * l2lo + thi).

(** The doubles nearest to the two bounds of [exp (m * 2 ^ e)]. *)
Definition exp_rounded (m e : Z) : float * float :=
  let '(lo, hi, f) := exp_bounds m e in
  (round_nearest_even lo (- f), round_nearest_even hi (- f)).

(** The doubles nearest to the two bounds of [(mb * 2 ^ eb) ^ (mp * 2 ^ ep)],
    for [mb > 0]. *)
Definition pow_rounded (mb eb mp ep : Z) : float * float :=
  let '(llo, lhi) := ln_bounds mb eb in
  let ylo := if 0 <=? mp then scale_floor (mp * llo) ep
             else scale_floor (mp * lhi) ep in
  let yhi := if 0 <=? mp then scale_ceil (mp * lhi) ep
             else scale_ceil (mp * llo) ep in
  let big := Z.shiftl 1100 P in
  if big <? ylo then (PrimFloat.infinity, PrimFloat.infinity)
  else if yhi <? - big then (PrimFloat.zero, PrimFloat.zero)
  else
    let '(lo, _, flo) := exp_bounds ylo (- P) in
    let '(_, hi, fhi) := exp_bounds yhi (- P) in
    (round_nearest_even lo (- flo), round_nearest_even hi (- fhi)).

End Enclosures.

(** Precisions tried in turn until both bounds round to the same double. *)
Definition precisions : list Z := (160 :: 320 :: 640 :: 1280 :: nil)%list.

Fixpoint settle (f : Z -> float * float) (ps : list Z) : float :=
  match ps with
  | nil => PrimFloat.nan
  | cons p ps' =>
      let '(lo, hi) := f p in
      if PrimFloat.eqb lo hi then lo else settle f ps'
  end.

Definition signed (s : bool) (m : positive) : Z :=
  if s then Z.neg m else Z.pos m.

(** [np.exp] on a double: the correctly rounded exponential. *)
Definition np_exp (x : float) : float :=
  match Prim2SF x with
  | S754_nan => PrimFloat.nan
  | S754_infinity false => PrimFloat.infinity
  | S754_infinity true => PrimFloat.zero
  | S754_zero _ => PrimFloat.one
  | S754_finite s m e =>
      if 11 <? bitlen (Z.pos m) + e
      then (if s then PrimFloat.zero else PrimFloat.infinity)
      else settle (fun p => exp_rounded p (signed s m) e) precisions
  end.

(** [np.power] on doubles, for the bases the program passes (NaN, or a
    base that is not negative): the correctly rounded power. *)
Definition np_power (base exponent : float) : float :=
  match Prim2SF exponent, Prim2SF base with
  | S754_zero _, _ => PrimFloat.one
  | _, S754_finite false 4503599627370496 (-52) => PrimFloat.one
  | S754_nan, _ => PrimFloat.nan
  | _, S754_nan => PrimFloat.nan
  | S754_infinity false, _ =>
      if PrimFloat.ltb (PrimFloat.abs base) PrimFloat.one
      then PrimFloat.zero else PrimFloat.infinity
  | S754_infinity true, _ =>
      if PrimFloat.ltb (PrimFloat.abs base) PrimFloat.one
      then PrimFloat.infinity else PrimFloat.zero
  | S754_finite sp _ _, S754_zero _ =>
      if sp then PrimFloat.infinity else PrimFloat.zero
  | S754_finite sp _ _, S754_infinity false =>
      if sp then PrimFloat.zero else PrimFloat.infinity
  | S754_finite sp mp ep, S754_finite false mb eb =>
      settle (fun p => pow_rounded p (Z.pos mb) eb (signed sp mp) ep)
        precisions
  | S754_finite _ _ _, _ => PrimFloat.nan
  end.

End Libm.

(** ** The program on doubles

    The same lines as above, with Python's [float] as [PrimFloat.float].
    [v < 0] and [v == 0] are the IEEE comparisons, so NaN passes every
    guard and [-0.0 == 0] holds. *)

Module Binary64.

Import Libm.
Local Open Scope float_scope.

(** Lines 4-10. *)
Definition C_0_01 : float := 0.01.
Definition C_0_02 : float := 0.02.
Definition C_NEG_0_00005 : float := -0.00005.
Definition C_0_1 : float := 0.1.
Definition POWER_EXPONENT : float := 0.3.
Definition MAX_TI_FRACTION_OF_TR : float := 1 / 3.

Definition py_min (a b : float) : float := if b <? a then b else a.
Definition py_max (a b : float) : float := if a <? b then b else a.

(** Lines 14-21. *)
Definition _F (v : float) : result float :=
  if v <? 0 then Raise (ValueError msg_negative)
  else Return (C_0_01 + (C_0_02 * np_exp (C_NEG_0_00005 * v))).

(** Lines 23-36. *)
Definition calculate_TR (v : float) : result float :=
  if v <? 0 then Raise (ValueError msg_negative)
  else if v =? 0 then Return 0
  else if C_0_1 =? 0 then Raise (ZeroDivisionError msg_zero_div)
  else
    let* f_v := _F v in
    Return (f_v * v / C_0_1).

(** Lines 38-52. *)
Definition calculate_potential_TI (v : float) : result float :=
  if v <? 0 then Raise (ValueError msg_negative)
  else if C_0_1 =? 0 then Raise (ZeroDivisionError msg_zero_div)
  else
    let base := 1 + v in
    let pow_val := np_power base POWER_EXPONENT in
    Return (pow_val / C_0_1).

(** Lines 54-82. *)
Definition calculate_TR_and_TI (v : float) : result (float * float) :=
  if v <? 0 then Raise (ValueError msg_negative)
  else
    let* tr_value := calculate_TR v in
    let* potential_ti_value := calculate_potential_TI v in
    let ti_upper_bound := MAX_TI_FRACTION_OF_TR * tr_value in
    let ti_value := py_min potential_ti_value ti_upper_bound in
    let ti_value := py_max 0 ti_value in
    Return (tr_value, ti_value).

(** The same body with line 80 (the floor at zero) deleted. *)
Definition calculate_TR_and_TI_no_floor (v : float) : result (float * float) :=
  if v <? 0 then Raise (ValueError msg_negative)
  else
    let* tr_value := calculate_TR v in
    let* potential_ti_value := calculate_potential_TI v in
    let ti_upper_bound := MAX_TI_FRACTION_OF_TR * tr_value in
    let ti_value := py_min potential_ti_value ti_upper_bound in
    Return (tr_value, ti_value).

(** Lines 86-97: the volumes of the table and its lines. *)
Definition test_volumes : list float :=
  [0; 1; 100; 1000; 10000; 50000; 100000; 500000]%float.

Inductive table_line : Type :=
| DataLine (volume tr ti : float)
| ErrorLine (volume : float) (msg : string).

Definition table_line_of (volume : float) : table_line :=
  match calculate_TR_and_TI volume with
  | Return (tr, ti) => DataLine volume tr ti
  | Raise e => ErrorLine volume (exn_message e)
  end.

Definition table (volumes : list float) : list table_line :=
  map table_line_of volumes.

(** [line_below l1 l2]: both are data lines, and the volume, the cost and
    the reward of [l1] are strictly below those of [l2]. *)
Definition line_below (l1 l2 : table_line) : bool :=
  match l1, l2 with
  | DataLine v1 tr1 ti1, DataLine v2 tr2 ti2 =>
      (v1 <? v2) && (tr1 <? tr2) && (ti1 <? ti2)
  | _, _ => false
  end.

(** [reward_is_cap v]: the call succeeds and the reward is the cap, below
    the potential reward; [reward_is_potential v]: the call succeeds and
    the reward is the potential reward, below the cap. *)
Definition reward_is_cap (v : float) : bool :=
  match calculate_TR_and_TI v, calculate_potential_TI v with
  | Return (tr, ti), Return pot =>
      (ti =? MAX_TI_FRACTION_OF_TR * tr) && (ti <? pot)
  | _, _ => false
  end.

Definition reward_is_potential (v : float) : bool :=
  match calculate_TR_and_TI v, calculate_potential_TI v with
  | Return (tr, ti), Return pot =>
      (ti =? pot) && (ti <? MAX_TI_FRACTION_OF_TR * tr)
  | _, _ => false
  end.

Fixpoint strictly_increasing (ls : list table_line) : bool :=
  match ls with
  | l1 :: ((l2 :: _) as rest) => line_below l1 l2 && strictly_increasing rest
  | _ => true
  end.

End Binary64.

(** * Lemmas *)

(** ** Basic facts about the helpers *)

Lemma py_min_Rmin (a b : R) : py_min a b = Rmin a b.
Proof.
  unfold py_min, Rmin.
  destruct (Rlt_dec b a), (Rle_dec a b); lra.
Qed.

Lemma py_max_Rmax (a b : R) : py_max a b = Rmax a b.
Proof.
  unfold py_max, Rmax.
  destruct (Rlt_dec a b), (Rle_dec a b); lra.
Qed.

Lemma C_0_1_nonzero : C_0_1 <> 0.
Proof. unfold C_0_1. lra. Qed.

Lemma _F_eq (v : R) : 0 <= v -> _F v = Return (F_formula v).
Proof.
  intros Hv. unfold _F, F_formula, C_0_01, C_0_02, C_NEG_0_00005.
  destruct (Rlt_dec v 0); [lra | reflexivity].
Qed.

Lemma calculate_TR_eq (v : R) : 0 <= v -> calculate_TR v = Return (TR_formula v).
Proof.
  intros Hv. unfold calculate_TR.
  destruct (Rlt_dec v 0); [lra |].
  destruct (Req_dec_T v 0) as [-> | Hne].
  - unfold TR_formula. f_equal. lra.
  - destruct (Req_dec_T C_0_1 0) as [H0 | _]; [destruct (C_0_1_nonzero H0) |].
    rewrite (_F_eq v Hv). reflexivity.
Qed.

Lemma calculate_potential_TI_eq (v : R) :
  0 <= v -> calculate_potential_TI v = Return (TI_pot_formula v).
Proof.
  intros Hv. unfold calculate_potential_TI.
  destruct (Rlt_dec v 0); [lra |].
  destruct (Req_dec_T C_0_1 0) as [H0 | _]; [destruct (C_0_1_nonzero H0) |].
  reflexivity.
Qed.

Lemma calculate_TR_and_TI_eq (v : R) :
  0 <= v ->
  calculate_TR_and_TI v =
  Return (TR_formula v,
          Rmax 0 (Rmin (TI_pot_formula v) (1 / 3 * TR_formula v))).
Proof.
  intros Hv. unfold calculate_TR_and_TI.
  destruct (Rlt_dec v 0); [lra |].
  rewrite (calculate_TR_eq v Hv), (calculate_potential_TI_eq v Hv).
  cbn [bind]. rewrite py_max_Rmax, py_min_Rmin. reflexivity.
Qed.

(** ** Elementary bounds on the formulas *)


Lemma exp_neg_lt_1 (x : R) : x < 0 -> exp x < 1.
Proof. intros Hx. rewrite <- exp_0. now apply exp_increasing. Qed.

Lemma F_formula_lower (v : R) : 0.01 < F_formula v.
Proof. unfold F_formula. pose proof (exp_pos (- 0.00005 * v)). lra. Qed.


Lemma F_formula_upper_strict (v : R) : 0 < v -> F_formula v < 0.03.
Proof.
  intros Hv. unfold F_formula.
  assert (exp (- 0.00005 * v) < 1) by (apply exp_neg_lt_1; lra).
  lra.
Qed.


Lemma TR_formula_nonneg (v : R) : 0 <= v -> 0 <= TR_formula v.
Proof.
  intros Hv. unfold TR_formula.
  pose proof (F_formula_lower v). nra.
Qed.

Lemma TR_formula_0 : TR_formula 0 = 0.
Proof. unfold TR_formula. lra. Qed.

Lemma Rpower_1_l (c : R) : Rpower 1 c = 1.
Proof. unfold Rpower. rewrite ln_1, Rmult_0_r. apply exp_0. Qed.

Lemma Rpower_ge_1 (x c : R) : 1 <= x -> 0 <= c -> 1 <= Rpower x c.
Proof.
  intros Hx Hc. rewrite <- (Rpower_1_l c).
  apply Rle_Rpower_l; lra.
Qed.

Lemma TI_pot_formula_ge_10 (v : R) : 0 <= v -> 10 <= TI_pot_formula v.
Proof.
  intros Hv. unfold TI_pot_formula.
  assert (1 <= Rpower (1 + v) 0.3) by (apply Rpower_ge_1; lra).
  lra.
Qed.

Lemma TI_pot_formula_0 : TI_pot_formula 0 = 10.
Proof.
  unfold TI_pot_formula. rewrite Rplus_0_r, Rpower_1_l. lra.
Qed.


(** ** Monotonicity of the cost formula

    [TR_formula v = 0.1 * v + 0.2 * v * exp (- 0.00005 * v)].  The second
    summand is not monotone (it peaks at [v = 20000]), but it never falls
    faster than [0.1 * v] grows: with [t = 0.00005 * v], [t * exp (- t)] is
    at most [exp (- 1) <= 1 / 2]. *)




(** ** The reference pipeline agrees with the formulas *)

Lemma Spec_UnitFactor_eq (V : R) : Spec.UnitFactor V = F_formula V.
Proof. reflexivity. Qed.

Lemma Spec_Cost_eq (V : R) : Spec.Cost V = TR_formula V.
Proof.
  unfold Spec.Cost. destruct (Req_dec_T V 0) as [-> | _].
  - now rewrite TR_formula_0.
  - reflexivity.
Qed.

Lemma Spec_PotentialReward_eq (V : R) : Spec.PotentialReward V = TI_pot_formula V.
Proof. reflexivity. Qed.

(** ** Capped and uncapped evaluations, as inequalities *)

Lemma capped_at_iff (V : R) :
  0 <= V -> capped_at V <-> 1 / 3 * TR_formula V <= TI_pot_formula V.
Proof.
  intros HV. unfold capped_at. rewrite (calculate_TR_and_TI_eq V HV).
  pose proof (TR_formula_nonneg V HV) as Htr.
  split.
  - intros (tr & ti & Heq & Hti). injection Heq as <- <-.
    destruct (Rle_lt_dec (1 / 3 * TR_formula V) (TI_pot_formula V)) as [Hle | Hlt];
      [exact Hle |].
    pose proof (TI_pot_formula_ge_10 V HV) as Hpot.
    rewrite Rmin_left, Rmax_right in Hti by lra. lra.
  - intros Hle. eexists _, _. split; [reflexivity |].
    rewrite Rmin_right by lra. rewrite Rmax_right by lra. lra.
Qed.

Lemma uncapped_at_iff (V : R) :
  0 <= V -> uncapped_at V <-> TI_pot_formula V <= 1 / 3 * TR_formula V.
Proof.
  intros HV. unfold uncapped_at.
  rewrite (calculate_TR_and_TI_eq V HV), (calculate_potential_TI_eq V HV).
  pose proof (TI_pot_formula_ge_10 V HV) as Hpot.
  split.
  - intros (tr & ti & Heq & Hti). injection Heq as <- <-. injection Hti as Hti.
    destruct (Rle_lt_dec (TI_pot_formula V) (1 / 3 * TR_formula V)) as [Hle | Hlt];
      [exact Hle |].
    pose proof (TR_formula_nonneg V HV) as Htr.
    rewrite Rmin_right, Rmax_right in Hti by lra. lra.
  - intros Hle. eexists _, _. split; [reflexivity |].
    rewrite Rmin_left by lra. rewrite Rmax_right by lra. reflexivity.
Qed.

(** ** The cap ratio is increasing and crosses [3] once

    The derivative of [cap_ratio] is positive on [v >= 0], so by the mean
    value theorem the ratio is strictly increasing there; it is [0] at [0]
    and above [3] at [1023], so it takes the value [3] in between. *)

Lemma derivable_pt_lim_F_formula (v : R) :
  derivable_pt_lim F_formula v (- 0.000001 * exp (- 0.00005 * v)).
Proof.
  apply derivable_pt_lim_ext
    with (f := (fct_cte 0.01 + mult_real_fct 0.02 (comp exp (mult_real_fct (- 0.00005) id)))%F).
  - intros z. reflexivity.
  - replace (- 0.000001 * exp (- 0.00005 * v))
      with (0 + 0.02 * (exp (mult_real_fct (- 0.00005) id v) * (- 0.00005 * 1))).
    + apply derivable_pt_lim_plus; [apply derivable_pt_lim_const |].
      apply derivable_pt_lim_scal, derivable_pt_lim_comp.
      * apply derivable_pt_lim_scal, derivable_pt_lim_id.
      * apply derivable_pt_lim_exp.
    + unfold mult_real_fct, id. lra.
Qed.

Lemma Rpower_pred (x c : R) : 0 < x -> Rpower x (c - 1) = Rpower x c / x.
Proof.
  intros Hx. unfold Rminus. rewrite Rpower_plus, Rpower_Ropp, Rpower_1 by exact Hx.
  reflexivity.
Qed.

Lemma derivable_pt_lim_shifted_power (c v : R) :
  0 < 1 + v ->
  derivable_pt_lim (fun v => Rpower (1 + v) c) v (c * Rpower (1 + v) c / (1 + v)).
Proof.
  intros Hv.
  apply derivable_pt_lim_ext
    with (f := (comp (fun x => Rpower x c) (fct_cte 1 + id))%F).
  - intros z. reflexivity.
  - replace (c * Rpower (1 + v) c / (1 + v))
      with (c * Rpower ((fct_cte 1 + id)%F v) (c - 1) * (0 + 1)).
    + apply derivable_pt_lim_comp.
      * apply derivable_pt_lim_plus; [apply derivable_pt_lim_const | apply derivable_pt_lim_id].
      * apply derivable_pt_lim_power. exact Hv.
    + unfold plus_fct, fct_cte, id. rewrite Rpower_pred by exact Hv.
      field. lra.
Qed.

Lemma derivable_pt_lim_cap_ratio (v : R) :
  0 < 1 + v -> derivable_pt_lim cap_ratio v (cap_ratio_deriv v).
Proof.
  intros Hv.
  pose proof (derivable_pt_lim_mult _ _ _ _ _
                (derivable_pt_lim_F_formula v) (derivable_pt_lim_id v)) as HFv.
  pose proof (derivable_pt_lim_mult _ _ _ _ _
                HFv (derivable_pt_lim_shifted_power (- 0.3) v Hv)) as HG.
  apply derivable_pt_lim_ext
    with (f := (F_formula * id * (fun v => Rpower (1 + v) (- 0.3)))%F).
  - intros z. reflexivity.
  - replace (cap_ratio_deriv v)
      with ((- 0.000001 * exp (- 0.00005 * v) * id v + F_formula v * 1)
              * (fun v => Rpower (1 + v) (- 0.3)) v
            + (F_formula * id)%F v * (- 0.3 * Rpower (1 + v) (- 0.3) / (1 + v))).
    + exact HG.
    + unfold cap_ratio_deriv, mult_fct, id. decimals. field. lra.
Qed.

(** [exp t = exp (t / 3) ^ 3 >= (1 + t / 3) ^ 3 >= 1 + t + t ^ 2 / 3]. *)
Lemma exp_cubic_lower (t : R) : 0 <= t -> 1 + t + t * t / 3 <= exp t.
Proof.
  intros Ht.
  pose proof (exp_ineq1_le (t / 3)) as Hw.
  replace (exp t) with (exp (t / 3) * (exp (t / 3) * exp (t / 3))).
  - set (w := exp (t / 3)) in *.
    assert (H1 : 1 + t / 3 <= w) by lra.
    assert (H2 : (1 + t / 3) * (1 + t / 3) <= w * w) by nra.
    assert (H3 : (1 + t / 3) * ((1 + t / 3) * (1 + t / 3)) <= w * (w * w)) by nra.
    nra.
  - rewrite <- !exp_plus. f_equal. lra.
Qed.

(** With [t = 0.00005 * v], the sign of [cap_ratio_deriv v] is decided by
    [0.007 + exp (- t) * (0.014 - 0.02 * t)]; multiplied by [exp t] and
    bounded by the cubic above it is a quadratic without real roots. *)
Lemma decay_margin (t : R) : 0 <= t -> 0 < 0.007 + exp (- t) * (0.014 - 0.02 * t).
Proof.
  intros Ht.
  pose proof (exp_cubic_lower t Ht) as HW.
  pose proof (exp_pos (- t)) as He.
  assert (Hinv : exp (- t) * exp t = 1).
  { rewrite <- exp_plus. replace (- t + t) with 0 by lra. apply exp_0. }
  assert (Hq : 0 < 0.007 * exp t + 0.014 - 0.02 * t).
  { pose proof (Rle_0_sqr (14 * t - 39)) as Hsq. unfold Rsqr in Hsq.
    clear Hinv He. generalize dependent (exp t). intros W HW. nra. }
  assert (Hm : 0 < exp (- t) * (0.007 * exp t + 0.014 - 0.02 * t))
    by (apply Rmult_lt_0_compat; assumption).
  nra.
Qed.

Lemma cap_ratio_deriv_pos (v : R) : 0 <= v -> 0 < cap_ratio_deriv v.
Proof.
  intros Hv. unfold cap_ratio_deriv.
  apply Rmult_lt_0_compat; [apply exp_pos |].
  pose proof (decay_margin (0.00005 * v)) as Hm.
  replace (- (0.00005 * v)) with (- 0.00005 * v) in Hm by lra.
  assert (Hfrac : 0.7 <= (1 + 0.7 * v) / (1 + v)).
  { assert (Hinv1 : 0 < / (1 + v)) by (apply Rinv_0_lt_compat; lra).
    replace 0.7 with (0.7 * (1 + v) * / (1 + v)) at 1 by (field; lra).
    unfold Rdiv. apply Rmult_le_compat_r; lra. }
  unfold F_formula.
  pose proof (exp_pos (- 0.00005 * v)) as He.
  assert (Hm' : 0 < 0.007 + exp (- 0.00005 * v) * (0.014 - 0.02 * (0.00005 * v)))
    by (apply Hm; lra).
  assert (HF : 0 < 0.01 + 0.02 * exp (- 0.00005 * v)) by lra.
  assert (0.7 * (0.01 + 0.02 * exp (- 0.00005 * v))
          <= (0.01 + 0.02 * exp (- 0.00005 * v)) * ((1 + 0.7 * v) / (1 + v)))
    by nra.
  nra.
Qed.

Lemma cap_ratio_increasing (x y : R) : 0 <= x -> x < y -> cap_ratio x < cap_ratio y.
Proof.
  intros Hx Hxy.
  destruct (MVT_cor2 cap_ratio cap_ratio_deriv x y Hxy) as (c & Hc & Hin).
  - intros c Hc. apply derivable_pt_lim_cap_ratio. lra.
  - assert (0 < cap_ratio_deriv c) by (apply cap_ratio_deriv_pos; lra).
    nra.
Qed.

Lemma Rpower_inv_mul (x c : R) : 0 < x -> Rpower x c * Rpower x (- c) = 1.
Proof.
  intros Hx. rewrite <- Rpower_plus. replace (c + - c) with 0 by lra.
  now apply Rpower_O.
Qed.

Lemma cap_le_pot_iff (v : R) :
  0 <= v -> 1 / 3 * TR_formula v <= TI_pot_formula v <-> cap_ratio v <= 3.
Proof.
  intros Hv. unfold TR_formula, TI_pot_formula, cap_ratio.
  assert (Hx : 0 < 1 + v) by lra.
  pose proof (Rpower_inv_mul (1 + v) 0.3 Hx) as Hinv.
  replace (- 0.3) with (- (0.3)) by lra.
  assert (HP : 0 < Rpower (1 + v) 0.3) by apply exp_pos.
  assert (HQ : 0 < Rpower (1 + v) (- (0.3))) by apply exp_pos.
  set (P := Rpower (1 + v) 0.3) in *.
  set (Q := Rpower (1 + v) (- (0.3))) in *.
  set (A := F_formula v * v).
  split; intros H.
  - assert (HA : A <= 3 * P) by lra.
    assert (A * Q <= 3 * P * Q) by (apply Rmult_le_compat_r; lra).
    nra.
  - assert (HA : A * Q * P <= 3 * P) by (apply Rmult_le_compat_r; lra).
    assert (A <= 3 * P) by nra.
    lra.
Qed.

Lemma pot_le_cap_iff (v : R) :
  0 <= v -> TI_pot_formula v <= 1 / 3 * TR_formula v <-> 3 <= cap_ratio v.
Proof.
  intros Hv. unfold TR_formula, TI_pot_formula, cap_ratio.
  assert (Hx : 0 < 1 + v) by lra.
  pose proof (Rpower_inv_mul (1 + v) 0.3 Hx) as Hinv.
  replace (- 0.3) with (- (0.3)) by lra.
  assert (HP : 0 < Rpower (1 + v) 0.3) by apply exp_pos.
  assert (HQ : 0 < Rpower (1 + v) (- (0.3))) by apply exp_pos.
  set (P := Rpower (1 + v) 0.3) in *.
  set (Q := Rpower (1 + v) (- (0.3))) in *.
  set (A := F_formula v * v).
  split; intros H.
  - assert (HA : 3 * P <= A) by lra.
    assert (3 * P * Q <= A * Q) by (apply Rmult_le_compat_r; lra).
    nra.
  - assert (HA : 3 * P <= A * Q * P) by (apply Rmult_le_compat_r; lra).
    assert (3 * P <= A) by nra.
    lra.
Qed.

Lemma cap_ratio_0 : cap_ratio 0 = 0.
Proof. unfold cap_ratio. ring. Qed.

Lemma Rpower_1024 : Rpower 1024 0.3 = 8.
Proof.
  replace 1024 with (Rpower 2 (INR 10)).
  - rewrite Rpower_mult.
    replace (INR 10 * 0.3) with (INR 3) by (simpl; lra).
    rewrite Rpower_pow by lra. lra.
  - rewrite Rpower_pow by lra. lra.
Qed.

Lemma cap_ratio_1023 : 3 < cap_ratio 1023.
Proof.
  unfold cap_ratio, F_formula.
  replace (1 + 1023) with 1024 by lra.
  replace (- 0.3) with (- (0.3)) by lra.
  rewrite Rpower_Ropp, Rpower_1024.
  pose proof (exp_ineq1_le (- 0.00005 * 1023)). lra.
Qed.

Lemma cap_ratio_continuity_pt (v : R) : 0 <= v -> continuity_pt cap_ratio v.
Proof.
  intros Hv. apply derivable_continuous_pt.
  exists (cap_ratio_deriv v). apply derivable_pt_lim_cap_ratio. lra.
Qed.

Lemma crossover_exists : exists Vs, 0 < Vs < 1023 /\ cap_ratio Vs = 3.
Proof.
  destruct (IVT_interv (cap_ratio - fct_cte 3)%F 0 1023) as (z & Hz & Hfz).
  - intros a Ha. apply continuity_pt_minus.
    + apply cap_ratio_continuity_pt. lra.
    + apply continuity_pt_const. intros x y. reflexivity.
  - lra.
  - unfold minus_fct, fct_cte. rewrite cap_ratio_0. lra.
  - unfold minus_fct, fct_cte. pose proof cap_ratio_1023. lra.
  - unfold minus_fct, fct_cte in Hfz.
    exists z. split; [| lra].
    destruct Hz as [[Hz0 | Hz0] [Hz1 | Hz1]].
    + lra.
    + subst z. pose proof cap_ratio_1023. lra.
    + subst z. rewrite cap_ratio_0 in Hfz. lra.
    + lra.
Qed.

(** ** Evaluations on doubles

    Values of the [Binary64] functions at the doubles used below, each
    obtained by running the definitions. *)

Lemma np_exp_1 : Libm.np_exp 1 = 2.7182818284590451%float.
Proof. vm_compute. reflexivity. Qed.

Lemma np_exp_minus_1 : Libm.np_exp (-1) = 0.36787944117144233%float.
Proof. vm_compute. reflexivity. Qed.

Lemma np_power_sqrt_2 : Libm.np_power 2 0.5 = 1.4142135623730951%float.
Proof. vm_compute. reflexivity. Qed.

Lemma np_power_cube_root_8 :
  Libm.np_power 8 (1 / 3) = 2%float /\ Libm.np_power 1024 0.5 = 32%float.
Proof. split; vm_compute; reflexivity. Qed.

Lemma Binary64_adjacent_16041 :
  next_up 16041.859110456413%float = 16041.859110456415%float.
Proof. vm_compute. reflexivity. Qed.




Lemma Binary64_F_1e_20 :
  Binary64._F 1e-20%float =
  Return (Binary64.C_0_01 + Binary64.C_0_02)%float.
Proof. vm_compute. reflexivity. Qed.

Lemma Binary64_adjacent_421 :
  next_up 421.22143529377263%float = 421.2214352937727%float.
Proof. vm_compute. reflexivity. Qed.



Lemma Binary64_TR_and_TI_nan :
  Binary64.calculate_TR_and_TI nan = Return (nan, 0%float).
Proof. vm_compute. reflexivity. Qed.

Lemma Binary64_TR_and_TI_no_floor_nan :
  Binary64.calculate_TR_and_TI_no_floor nan = Return (nan, nan).
Proof. vm_compute. reflexivity. Qed.

(** * Claims *)

(** C1 (as stated, refuted).  There is no threshold [Vs >= 0] below which
    the reward is the potential reward and from which on it is a third of
    the cost: at [V = 0] the reward is [0], not the potential reward [10],
    and at [V = 1023] the potential reward [80] is below the cap, so the
    reward is not a third of the cost. *)
Lemma C1_threshold_as_stated_fails :
  ~ (exists Vs, 0 <= Vs /\
       (forall V, 0 <= V < Vs -> uncapped_at V) /\
       (forall V, Vs <= V -> capped_at V)).
Proof.
  intros (Vs & [HVs | HVs] & Hlow & Hhigh).
  - assert (H0 : uncapped_at 0) by (apply Hlow; lra).
    apply uncapped_at_iff in H0; [| lra].
    rewrite TI_pot_formula_0, TR_formula_0 in H0. lra.
  - assert (H1 : capped_at 1023) by (apply Hhigh; lra).
    apply capped_at_iff in H1; [| lra].
    apply cap_le_pot_iff in H1; [| lra].
    pose proof cap_ratio_1023. lra.
Qed.

(** C1 (amended).  The capping runs the other way: there is a threshold
    [Vs] with [0 < Vs < 1023] such that for every [V] with [0 <= V <= Vs]
    the reward returned by [calculate_TR_and_TI] is a third of the cost
    (capped), and for every [V >= Vs] it is the potential reward
    (uncapped); at [Vs] the two coincide. *)
Theorem C1_capping_threshold :
  exists Vs, 0 < Vs < 1023 /\
    (forall V, 0 <= V <= Vs -> capped_at V) /\
    (forall V, Vs <= V -> uncapped_at V).
Proof.
  destruct crossover_exists as (Vs & HVs & Hcross).
  exists Vs. split; [exact HVs |]. split.
  - intros V HV. apply capped_at_iff; [lra |]. apply cap_le_pot_iff; [lra |].
    destruct (Req_dec_T V Vs) as [-> | Hne]; [lra |].
    assert (cap_ratio V < cap_ratio Vs) by (apply cap_ratio_increasing; lra).
    lra.
  - intros V HV. apply uncapped_at_iff; [lra |]. apply pot_le_cap_iff; [lra |].
    destruct (Req_dec_T V Vs) as [-> | Hne]; [lra |].
    assert (cap_ratio Vs < cap_ratio V) by (apply cap_ratio_increasing; lra).
    lra.
Qed.

(** C2.  For every [V >= 0], [calculate_TR_and_TI V] returns a pair
    [(TR, TI)] with [TR >= 0] and [0 <= TI <= TR / 3]. *)
Theorem C2_evaluate_bounds (V : R) :
  0 <= V ->
  exists tr ti,
    calculate_TR_and_TI V = Return (tr, ti) /\ 0 <= tr /\ 0 <= ti <= tr / 3.
Proof.
  intros HV. rewrite (calculate_TR_and_TI_eq V HV).
  pose proof (TR_formula_nonneg V HV) as Htr.
  eexists _, _. split; [reflexivity |]. split; [exact Htr |]. split.
  - apply Rmax_l.
  - apply Rmax_lub; [lra |].
    eapply Rle_trans; [apply Rmin_r | lra].
Qed.

Lemma C2_evaluate_bounds_witness :
  0 <= 1 /\
  exists tr ti,
    calculate_TR_and_TI 1 = Return (tr, ti) /\ 0 <= tr /\ 0 <= ti <= tr / 3.
Proof. split; [lra | apply (C2_evaluate_bounds 1); lra]. Defined.

(** C3.  [calculate_TR_and_TI 0] returns exactly [(0, 0)]: the potential
    reward at [0] is [1 / C_0_1 > 0], the cost is [0], so the cap is [0]
    and the reward is capped down to [0]. *)
Theorem C3_evaluate_zero :
  calculate_TR_and_TI 0 = Return (0, 0) /\
  calculate_potential_TI 0 = Return (1 / C_0_1) /\
  0 < 1 / C_0_1 /\
  calculate_TR 0 = Return 0 /\
  MAX_TI_FRACTION_OF_TR * 0 = 0.
Proof.
  assert (H0 : 0 <= 0) by lra.
  split; [| split; [| split; [| split]]].
  - rewrite (calculate_TR_and_TI_eq 0 H0).
    rewrite TR_formula_0, TI_pot_formula_0.
    rewrite Rmin_right by lra. rewrite Rmax_left by lra.
    reflexivity.
  - rewrite (calculate_potential_TI_eq 0 H0). f_equal.
    rewrite TI_pot_formula_0. unfold C_0_1. lra.
  - unfold C_0_1. lra.
  - rewrite (calculate_TR_eq 0 H0). now rewrite TR_formula_0.
  - lra.
Qed.

(** C4.  For every [V >= 0], [calculate_TR_and_TI V] returns what the
    reference pipeline of the specification computes: [TR = Cost V] (with
    [Cost 0 = 0] short-circuited and [UnitFactor V * V / c3] otherwise),
    [TI_pot = PotentialReward V], and the pair
    [(TR, max 0 (min TI_pot ((1/3) * TR)))]; the three helpers agree with
    their counterparts too. *)
Theorem C4_evaluate_refines_spec (V : R) :
  0 <= V ->
  calculate_TR_and_TI V = Return (Spec.Evaluate V) /\
  calculate_TR V = Return (Spec.Cost V) /\
  calculate_potential_TI V = Return (Spec.PotentialReward V) /\
  _F V = Return (Spec.UnitFactor V).
Proof.
  intros HV. unfold Spec.Evaluate.
  rewrite Spec_Cost_eq, Spec_PotentialReward_eq, Spec_UnitFactor_eq.
  split; [| split; [| split]].
  - apply calculate_TR_and_TI_eq, HV.
  - apply calculate_TR_eq, HV.
  - apply calculate_potential_TI_eq, HV.
  - apply _F_eq, HV.
Qed.

Lemma C4_evaluate_refines_spec_witness :
  0 <= 2 /\
  calculate_TR_and_TI 2 = Return (Spec.Evaluate 2) /\
  calculate_TR 2 = Return (Spec.Cost 2) /\
  calculate_potential_TI 2 = Return (Spec.PotentialReward 2) /\
  _F 2 = Return (Spec.UnitFactor 2).
Proof. split; [lra | apply (C4_evaluate_refines_spec 2); lra]. Defined.

(** C5.  For every [V < 0], each of [calculate_TR_and_TI], [calculate_TR],
    [calculate_potential_TI] and [_F] raises [ValueError] (with the message
    of the first guard), and nothing else is computed. *)
Theorem C5_negative_volume_rejected (V : R) :
  V < 0 ->
  calculate_TR_and_TI V = Raise (ValueError msg_negative) /\
  calculate_TR V = Raise (ValueError msg_negative) /\
  calculate_potential_TI V = Raise (ValueError msg_negative) /\
  _F V = Raise (ValueError msg_negative).
Proof.
  intros HV.
  unfold calculate_TR_and_TI, calculate_TR, calculate_potential_TI, _F.
  destruct (Rlt_dec V 0) as [_ | Hn]; [| contradiction].
  split; [| split; [| split]]; reflexivity.
Qed.

Lemma C5_negative_volume_rejected_witness :
  -1 < 0 /\
  calculate_TR_and_TI (-1) = Raise (ValueError msg_negative) /\
  calculate_TR (-1) = Raise (ValueError msg_negative) /\
  calculate_potential_TI (-1) = Raise (ValueError msg_negative) /\
  _F (-1) = Raise (ValueError msg_negative).
Proof. split; [lra | apply (C5_negative_volume_rejected (-1)); lra]. Defined.







(** C8.  The division-by-zero guard is unreachable: [C_0_1] is not zero, so
    for every [V >= 0] both [calculate_TR V] and [calculate_potential_TI V]
    return a value and neither raises [ZeroDivisionError]. *)
Theorem C8_zero_division_guard_unreachable (V : R) :
  0 <= V ->
  C_0_1 <> 0 /\
  (exists tr, calculate_TR V = Return tr) /\
  (exists ti, calculate_potential_TI V = Return ti) /\
  ~ is_ZeroDivisionError (calculate_TR V) /\
  ~ is_ZeroDivisionError (calculate_potential_TI V).
Proof.
  intros HV.
  rewrite (calculate_TR_eq V HV), (calculate_potential_TI_eq V HV).
  split; [apply C_0_1_nonzero |].
  split; [eexists; reflexivity |].
  split; [eexists; reflexivity |].
  split; intros H; exact H.
Qed.

Lemma C8_zero_division_guard_unreachable_witness :
  0 <= 5 /\
  C_0_1 <> 0 /\
  (exists tr, calculate_TR 5 = Return tr) /\
  (exists ti, calculate_potential_TI 5 = Return ti) /\
  ~ is_ZeroDivisionError (calculate_TR 5) /\
  ~ is_ZeroDivisionError (calculate_potential_TI 5).
Proof.
  split; [lra | apply (C8_zero_division_guard_unreachable 5); lra].
Defined.




(** C10 (as stated, refuted on doubles).  The floor [max(0.0, ...)] of
    line 80 is not a no-op on the whole domain of the function: NaN passes
    the guard [v < 0], the minimum of the potential reward and the cap is
    NaN, and the floor turns it into [0.0]; the code returns [(nan, 0.0)],
    and [(nan, nan)] with line 80 removed. *)
Lemma C10_floor_changes_nan :
  ~ (forall V : float,
       Binary64.calculate_TR_and_TI_no_floor V =
       Binary64.calculate_TR_and_TI V).
Proof.
  intros H. specialize (H nan).
  rewrite Binary64_TR_and_TI_nan, Binary64_TR_and_TI_no_floor_nan in H.
  apply (f_equal (fun r => match r with
                          | Return (_, ti) => PrimFloat.is_nan ti
                          | Raise _ => false
                          end)) in H.
  vm_compute in H. discriminate H.
Qed.

(** C10 (amended).  On every volume that is a number the floor of line 80
    changes nothing: for every real [V], [calculate_TR_and_TI] with the
    floor removed returns the same result as [calculate_TR_and_TI] (the
    same pair for [V >= 0], the same [ValueError] for [V < 0]), and for
    [V >= 0] the minimum of the potential reward and the cap is already
    non-negative. *)
Theorem C10_floor_is_noop (V : R) :
  calculate_TR_and_TI_no_floor V = calculate_TR_and_TI V /\
  (0 <= V ->
   exists tr pot,
     calculate_TR V = Return tr /\
     calculate_potential_TI V = Return pot /\
     0 <= py_min pot (MAX_TI_FRACTION_OF_TR * tr)).
Proof.
  assert (Hmin : 0 <= V ->
            0 <= py_min (TI_pot_formula V)
                   (MAX_TI_FRACTION_OF_TR * TR_formula V)).
  { intros HV.
    pose proof (TR_formula_nonneg V HV) as Htr.
    pose proof (TI_pot_formula_ge_10 V HV) as Hpot.
    rewrite py_min_Rmin. unfold MAX_TI_FRACTION_OF_TR.
    apply Rmin_glb; lra. }
  split.
  - unfold calculate_TR_and_TI_no_floor, calculate_TR_and_TI.
    destruct (Rlt_dec V 0) as [Hneg | Hpos]; [reflexivity |].
    assert (HV : 0 <= V) by lra.
    rewrite (calculate_TR_eq V HV), (calculate_potential_TI_eq V HV).
    cbn [bind]. rewrite py_max_Rmax, Rmax_right by exact (Hmin HV).
    reflexivity.
  - intros HV.
    exists (TR_formula V), (TI_pot_formula V).
    split; [apply calculate_TR_eq, HV |].
    split; [apply calculate_potential_TI_eq, HV | exact (Hmin HV)].
Qed.

(** * Further properties of the calculation functions *)

(** ** Helper lemmas *)

Lemma calculate_TR_and_TI_negative (v : R) :
  v < 0 -> calculate_TR_and_TI v = Raise (ValueError msg_negative).
Proof.
  intros Hv. unfold calculate_TR_and_TI.
  destruct (Rlt_dec v 0); [reflexivity | contradiction].
Qed.

Lemma calculate_TR_and_TI_formula (v : R) :
  0 <= v -> calculate_TR_and_TI v = Return (TR_formula v, TI_formula v).
Proof. apply calculate_TR_and_TI_eq. Qed.

Lemma TI_formula_min (v : R) :
  0 <= v -> TI_formula v = Rmin (TI_pot_formula v) (1 / 3 * TR_formula v).
Proof.
  intros Hv. unfold TI_formula.
  pose proof (TR_formula_nonneg v Hv).
  pose proof (TI_pot_formula_ge_10 v Hv).
  apply Rmax_right. apply Rmin_glb; lra.
Qed.

Lemma cap_lt_pot_iff (v : R) :
  0 <= v -> 1 / 3 * TR_formula v < TI_pot_formula v <-> cap_ratio v < 3.
Proof.
  intros Hv. pose proof (pot_le_cap_iff v Hv) as Hiff.
  split; intros H.
  - apply Rnot_le_lt. intros Hge. apply Hiff in Hge. lra.
  - apply Rnot_le_lt. intros Hle. apply Hiff in Hle. lra.
Qed.

Lemma pot_lt_cap_iff (v : R) :
  0 <= v -> TI_pot_formula v < 1 / 3 * TR_formula v <-> 3 < cap_ratio v.
Proof.
  intros Hv. pose proof (cap_le_pot_iff v Hv) as Hiff.
  split; intros H.
  - apply Rnot_le_lt. intros Hge. apply Hiff in Hge. lra.
  - apply Rnot_le_lt. intros Hle. apply Hiff in Hle. lra.
Qed.

Lemma cap_ratio_small (v : R) : 0 <= v <= 100 -> cap_ratio v < 3.
Proof.
  intros [[Hpos | <-] Hup]; [| rewrite cap_ratio_0; lra].
  unfold cap_ratio.
  pose proof (F_formula_lower v) as Hlo.
  pose proof (F_formula_upper_strict v Hpos) as HF.
  assert (HP : 1 <= Rpower (1 + v) 0.3) by (apply Rpower_ge_1; lra).
  assert (Hinv : Rpower (1 + v) 0.3 * Rpower (1 + v) (- (0.3)) = 1)
    by (apply Rpower_inv_mul; lra).
  replace (- 0.3) with (- (0.3)) by lra.
  assert (HQ : 0 < Rpower (1 + v) (- (0.3))) by apply exp_pos.
  set (P := Rpower (1 + v) 0.3) in *.
  set (Q := Rpower (1 + v) (- (0.3))) in *.
  assert (HQ1 : Q <= 1) by nra.
  assert (HFv : F_formula v * v < 3) by nra.
  assert (0 < F_formula v * v) by nra.
  nra.
Qed.

Lemma cap_ratio_large (v : R) : 1023 <= v -> 3 < cap_ratio v.
Proof.
  intros [Hlt | <-]; [| apply cap_ratio_1023].
  pose proof cap_ratio_1023.
  assert (cap_ratio 1023 < cap_ratio v) by (apply cap_ratio_increasing; lra).
  lra.
Qed.

(** ** Properties *)

(** X10.  Up to volume [100] the cap binds: the reward is a third of the
    cost and strictly below the potential reward. *)
Theorem X10_small_volumes_capped (V : R) :
  0 <= V <= 100 ->
  exists tr pot ti,
    calculate_TR V = Return tr /\
    calculate_potential_TI V = Return pot /\
    calculate_TR_and_TI V = Return (tr, ti) /\
    ti = tr / 3 /\ ti < pot.
Proof.
  intros HV.
  assert (H0 : 0 <= V) by lra.
  exists (TR_formula V), (TI_pot_formula V), (TI_formula V).
  split; [apply calculate_TR_eq, H0 |].
  split; [apply calculate_potential_TI_eq, H0 |].
  split; [apply calculate_TR_and_TI_formula, H0 |].
  assert (Hlt : 1 / 3 * TR_formula V < TI_pot_formula V)
    by (apply cap_lt_pot_iff; [exact H0 | apply cap_ratio_small, HV]).
  rewrite TI_formula_min by exact H0.
  rewrite Rmin_right by lra. lra.
Qed.

Lemma X10_small_volumes_capped_witness :
  0 <= 50 <= 100 /\
  exists tr pot ti,
    calculate_TR 50 = Return tr /\
    calculate_potential_TI 50 = Return pot /\
    calculate_TR_and_TI 50 = Return (tr, ti) /\
    ti = tr / 3 /\ ti < pot.
Proof. split; [lra | apply (X10_small_volumes_capped 50); lra]. Defined.

(** X11.  From volume [1023] on the cap no longer binds: the reward is the
    potential reward and strictly below a third of the cost. *)
Theorem X11_large_volumes_uncapped (V : R) :
  1023 <= V ->
  exists tr pot ti,
    calculate_TR V = Return tr /\
    calculate_potential_TI V = Return pot /\
    calculate_TR_and_TI V = Return (tr, ti) /\
    ti = pot /\ ti < tr / 3.
Proof.
  intros HV.
  assert (H0 : 0 <= V) by lra.
  exists (TR_formula V), (TI_pot_formula V), (TI_formula V).
  split; [apply calculate_TR_eq, H0 |].
  split; [apply calculate_potential_TI_eq, H0 |].
  split; [apply calculate_TR_and_TI_formula, H0 |].
  assert (Hlt : TI_pot_formula V < 1 / 3 * TR_formula V)
    by (apply pot_lt_cap_iff; [exact H0 | apply cap_ratio_large, HV]).
  rewrite TI_formula_min by exact H0.
  rewrite Rmin_left by lra. lra.
Qed.

Lemma X11_large_volumes_uncapped_witness :
  1023 <= 100000 /\
  exists tr pot ti,
    calculate_TR 100000 = Return tr /\
    calculate_potential_TI 100000 = Return pot /\
    calculate_TR_and_TI 100000 = Return (tr, ti) /\
    ti = pot /\ ti < tr / 3.
Proof. split; [lra | apply (X11_large_volumes_uncapped 100000); lra]. Defined.

(** ** The demonstration block *)

Lemma crossover_spec (Vs V : R) :
  0 < Vs -> cap_ratio Vs = 3 -> 0 <= V -> (cap_ratio V < 3 <-> V < Vs).
Proof.
  intros HVs Hcross HV. split; intros H.
  - apply Rnot_le_lt. intros [Hlt | Heq].
    + assert (cap_ratio Vs < cap_ratio V) by (apply cap_ratio_increasing; lra).
      lra.
    + subst V. lra.
  - assert (cap_ratio V < cap_ratio Vs) by (apply cap_ratio_increasing; lra).
    lra.
Qed.

Lemma capping_check_eq (v : R) :
  0 <= v ->
  capping_check v =
  Return {| rep_TR := TR_formula v;
            rep_potential_TI := TI_pot_formula v;
            rep_cap := 1 / 3 * TR_formula v;
            rep_final_TI := TI_formula v;
            rep_capped :=
              if Rlt_dec (1 / 3 * TR_formula v) (TI_pot_formula v)
              then true else false |}.
Proof.
  intros Hv. unfold capping_check.
  rewrite (calculate_TR_eq v Hv), (calculate_potential_TI_eq v Hv).
  cbn [bind]. rewrite py_min_Rmin. unfold MAX_TI_FRACTION_OF_TR.
  rewrite <- TI_formula_min by exact Hv. reflexivity.
Qed.

Lemma table_line_of_negative (v : R) :
  v < 0 -> table_line_of v = ErrorLine v msg_negative.
Proof.
  intros Hv. unfold table_line_of.
  now rewrite (calculate_TR_and_TI_negative v Hv).
Qed.

(** X12.  The capping check of lines 101-112 agrees with
    [calculate_TR_and_TI] on cost and final reward (it leaves out the floor
    at zero), and its flag [pot_ti_ex > cap_ex] is true exactly below one
    threshold volume, which lies between [100] and [1023]; for the shipped
    [v_example = 100000] the flag is false. *)
Theorem X12_capping_check_threshold :
  exists Vs, 100 < Vs < 1023 /\
    (forall V, 0 <= V ->
       exists rep tr ti,
         capping_check V = Return rep /\
         calculate_TR_and_TI V = Return (tr, ti) /\
         rep_TR rep = tr /\ rep_final_TI rep = ti /\
         (rep_capped rep = true <-> V < Vs)) /\
    (exists rep,
       capping_check v_example = Return rep /\ rep_capped rep = false).
Proof.
  destruct crossover_exists as (Vs & HVs & Hcross).
  assert (Hflag : forall V, 0 <= V ->
            ((if Rlt_dec (1 / 3 * TR_formula V) (TI_pot_formula V)
              then true else false) = true <-> V < Vs)).
  { intros V HV.
    rewrite <- (crossover_spec Vs V) by lra.
    rewrite <- (cap_lt_pot_iff V HV).
    destruct (Rlt_dec (1 / 3 * TR_formula V) (TI_pot_formula V)) as [Hlt | Hge].
    - split; [intros _; exact Hlt | reflexivity].
    - split; [discriminate | intros Hlt; contradiction]. }
  exists Vs. split; [| split].
  - split; [| lra].
    apply Rnot_le_lt. intros Hle.
    assert (cap_ratio Vs < 3) by (apply cap_ratio_small; lra).
    lra.
  - intros V HV.
    eexists _, _, _.
    split; [apply capping_check_eq, HV |].
    split; [apply calculate_TR_and_TI_formula, HV |].
    cbn. split; [reflexivity |]. split; [reflexivity |].
    apply Hflag, HV.
  - assert (Hv : 0 <= v_example) by (unfold v_example; lra).
    eexists. split; [apply capping_check_eq, Hv |].
    cbn. apply Bool.not_true_is_false. intros Htrue.
    apply (Hflag v_example Hv) in Htrue. unfold v_example in Htrue. lra.
Qed.

(** X14.  A negative volume in the list does not stop the table loop: its
    line is an error line carrying the text of the [ValueError], and the
    lines of the volumes before and after it are printed as without it. *)
Theorem X14_table_error_line (before after : list R) (v : R) :
  v < 0 ->
  table (before ++ v :: after) =
  table before ++ ErrorLine v msg_negative :: table after.
Proof.
  intros Hv. unfold table. rewrite map_app. cbn [map].
  now rewrite (table_line_of_negative v Hv).
Qed.

Lemma X14_table_error_line_witness :
  -5 < 0 /\
  table ([1; 2] ++ -5 :: [3]) =
  table [1; 2] ++ ErrorLine (-5) msg_negative :: table [3].
Proof. split; [lra | apply (X14_table_error_line [1; 2] [3] (-5)); lra]. Defined.

(** ** The program on doubles *)

(** X15.  On doubles, the values that are not ordinary numbers: NaN passes
    the guard [v < 0] of each of the four functions, which return NaN, and
    [calculate_TR_and_TI] returns [(nan, 0.0)]; [+infinity] gives
    [(infinity, infinity)]; [-infinity] raises [ValueError]; [-0.0] is
    taken by the test [v == 0] and gives [(0.0, 0.0)]. *)
Theorem X15_binary64_special_values :
  Binary64._F nan = Return nan /\
  Binary64.calculate_TR nan = Return nan /\
  Binary64.calculate_potential_TI nan = Return nan /\
  Binary64.calculate_TR_and_TI nan = Return (nan, 0%float) /\
  Binary64.calculate_TR_and_TI infinity = Return (infinity, infinity) /\
  Binary64.calculate_TR_and_TI neg_infinity =
    Raise (ValueError msg_negative) /\
  Binary64.calculate_TR_and_TI (-0)%float = Return (0, 0)%float.
Proof. repeat split; vm_compute; reflexivity. Qed.

(** X16.  On doubles, the table of lines 86-97 for the shipped
    [test_volumes] has eight lines, none of them an error line, and from
    each line to the next the volume, the cost and the reward strictly
    increase. *)
Theorem X16_binary64_table_increasing :
  length (Binary64.table Binary64.test_volumes) = 8%nat /\
  Binary64.strictly_increasing (Binary64.table Binary64.test_volumes) = true.
Proof. split; vm_compute; reflexivity. Qed.

(** X17.  On doubles, the direction of the capping at the shipped volumes:
    at [0], [1] and [100] the reward is the cap (a third of the cost) and
    below the potential reward; at [1000], [10000], [50000], [100000] and
    [500000] it is the potential reward and below the cap. *)
Theorem X17_binary64_capping_direction :
  forallb Binary64.reward_is_cap [0; 1; 100]%float = true /\
  forallb Binary64.reward_is_potential
    [1000; 10000; 50000; 100000; 500000]%float = true.
Proof. split; vm_compute; reflexivity. Qed.
